(** * Design-Patterns-GenAI: Adapter, Builder, Observer and Strategy

    A shallow embedding of the four pattern modules of the repository
    (adapter.py, builder.py, observer.py, strategy.py) and the properties
    their specification states about them.

    Conventions of the embedding:
    - a Python [str] whose characters are all below U+0100 is a [string],
      one [ascii] for each character, holding its code point (the texts of
      the four modules are in this range, and so is everything the modules
      build from texts in this range);
    - a Python exception is a constructor of [exn]; code that may raise
      returns a [result];
    - a method that assigns to [self] is a function on the state of its
      object (explicit state passing), in the monad [M] where it may also
      raise;
    - an attribute namespace that is looked up by name ([getattr]) is a
      finite map from names to attributes. *)

From Stdlib Require Import Ascii Floats.SpecFloat.
From stdpp Require Import gmap strings list.

Local Open Scope string_scope.
Local Open Scope Z_scope.

(** ** Characters and text *)

Definition LF : ascii := "010"%char.
Definition CR : ascii := "013"%char.
Definition TAB : ascii := "009"%char.
Definition BACKSLASH : ascii := "092"%char.
Definition SQUOTE : ascii := "039"%char.
Definition DQUOTE : ascii := "034"%char.

(** The one-character string ["\n"]. *)
Definition nl : string := String LF EmptyString.

(** [sep.join(ls)]. *)
Definition join (sep : string) (ls : list string) : string :=
  String.concat sep ls.

(** [sub in s] for two [str]: [sub] occurs in [s] as a contiguous run. *)
Fixpoint contains (sub s : string) : bool :=
  String.prefix sub s
  || match s with
     | EmptyString => false
     | String _ s' => contains sub s'
     end.

Fixpoint has_char (c : ascii) (s : string) : bool :=
  match s with
  | EmptyString => false
  | String d s' => if decide (d = c) then true else has_char c s'
  end.

(** ** Python values

    The values the four modules pass around besides plain text: [None] (what
    a method whose body is [pass] returns), [str] and [list]. *)

#[warnings="-register-all"]
Inductive pyval : Type :=
  | PNone
  | PStr (s : string)
  | PList (items : list pyval).

(** *** [repr] and [str]

    [repr] of a [str] as CPython's [unicode_repr] computes it: single quotes,
    unless the text has a single quote and no double quote; the chosen quote
    and the backslash are escaped with a backslash; tab, line feed and
    carriage return are written [\t], [\n], [\r]; every other character
    that is not printable is written [\xhh] (two hexadecimal digits are
    enough below U+0100); printable characters are copied. *)

(** [str.isprintable] on one character below U+0100: the ASCII characters
    from space to tilde, and the Latin-1 characters from U+00A1 on but the
    soft hyphen U+00AD. (U+0000 to U+001F, U+007F and U+0080 to U+009F are
    controls, U+00A0 is a separator other than the ASCII space, U+00AD is a
    format character.) *)
Definition printable (n : N) : bool :=
  ((32 <=? n) && (n <? 127) || (161 <=? n) && negb (n =? 173))%N.

Definition hex_digit (n : N) : ascii :=
  if (n <? 10)%N then ascii_of_N (48 + n) else ascii_of_N (87 + n).

Definition repr_quote (s : string) : ascii :=
  if has_char SQUOTE s && negb (has_char DQUOTE s) then DQUOTE else SQUOTE.

Definition repr_char (quote c : ascii) : string :=
  let n := N_of_ascii c in
  if decide (c = quote) then String BACKSLASH (String c EmptyString)
  else if decide (c = BACKSLASH) then String BACKSLASH (String c EmptyString)
  else if decide (c = TAB) then String BACKSLASH "t"
  else if decide (c = LF) then String BACKSLASH "n"
  else if decide (c = CR) then String BACKSLASH "r"
  else if printable n then String c EmptyString
  else
    String BACKSLASH
      (String "x" (String (hex_digit (n / 16)) (String (hex_digit (n mod 16)) EmptyString))).

Fixpoint repr_chars (quote : ascii) (s : string) : string :=
  match s with
  | EmptyString => EmptyString
  | String c s' => repr_char quote c ++ repr_chars quote s'
  end.

Definition repr_str (s : string) : string :=
  let quote := repr_quote s in
  String quote (repr_chars quote s ++ String quote EmptyString).

Fixpoint py_repr (v : pyval) : string :=
  match v with
  | PNone => "None"
  | PStr s => repr_str s
  | PList items => "[" ++ join ", " (map py_repr items) ++ "]"
  end.

(** [str(v)], which is also what an f-string field [{v}] renders: a [str] is
    itself, everything else here is its [repr]. *)
Definition py_str (v : pyval) : string :=
  match v with
  | PStr s => s
  | _ => py_repr v
  end.

(** ** Exceptions and the state-and-exception monad *)

Inductive exn : Type :=
  | AttributeError (name : string)   (* getattr: no attribute of that name *)
  | TypeError                        (* calling what is not callable, or with too few arguments *)
  | ValueError.                      (* list.remove(x): x not in list *)

Inductive result (A : Type) : Type :=
  | Ok (a : A)
  | Raise (e : exn).
Arguments Ok {A} a.
Arguments Raise {A} e.

(** A computation on a state [S] that returns an [A] or raises; the state it
    leaves is reported in both cases. *)
Definition M (S A : Type) : Type := S -> result A * S.

Definition ret {S A} (a : A) : M S A := fun s => (Ok a, s).

Definition bind {S A B} (m : M S A) (k : A -> M S B) : M S B :=
  fun s =>
    match m s with
    | (Ok a, s') => k a s'
    | (Raise e, s') => (Raise e, s')
    end.

Definition raise {S A} (e : exn) : M S A := fun s => (Raise e, s).
Definition get {S} : M S S := fun s => (Ok s, s).
Definition put {S} (s : S) : M S unit := fun _ => (Ok tt, s).

Declare Scope py_scope.
Delimit Scope py_scope with py.
Notation "x <- m ;; k" := (bind m (fun x => k))
  (at level 100, m at next level, right associativity) : py_scope.
Notation "m ;; k" := (bind m (fun _ => k))
  (at level 100, right associativity) : py_scope.
Local Open Scope py_scope.

(** [for x in xs: body(x)]: the first exception ends the loop. *)
Fixpoint for_each {S A} (xs : list A) (body : A -> M S unit) : M S unit :=
  match xs with
  | [] => ret tt
  | x :: xs' => body x ;; for_each xs' body
  end.

(** * adapter.py *)

Module Adapter.

(** What [getattr(obj, name)] can find: a data attribute; a bound method
    taking one text, which computes without side effects and is a function
    from its argument to its outcome; or a bound [__init__], whose body only
    assigns attributes of its object: called with one text it gives the
    assignments it makes, name by name, or raises. *)
Inductive attr : Type :=
  | Data (v : pyval)
  | Method (f : string -> result pyval)
  | Initializer (assign : string -> result (list (string * pyval))).

(** An object, as the namespace [getattr] sees: its instance attributes,
    what its class defines, and what it inherits. *)
Record pyobject : Type := { attrs : gmap string attr }.

(** A special name: one written with two leading underscores. *)
Definition special (name : string) : bool := String.prefix "__" name.

(** What every instance of a class without a base has besides what the
    class body and [__init__] give it: the attributes of [object] and of the
    class machinery ([__class__], [__doc__], [__eq__], [__module__], ...).
    They are the interpreter's, not this module's, and depend on its
    version, so their table is a parameter; all of them are special
    names. *)
Record runtime : Type := {
  object_attrs : gmap string attr;
  object_attrs_special :
    forall name, is_Some (object_attrs !! name) -> special name = true
}.

(** A small table to run the examples with: the class attribute [__doc__]
    of a class without docstring, which is [None]. (What is proved of the
    two classes is proved for every table.) *)
Definition sample_runtime : runtime.
Proof.
  refine {| object_attrs := {[ "__doc__" := Data PNone ]} |}.
  intros name [a Ha]. apply lookup_singleton_Some in Ha as [<- _]. reflexivity.
Defined.

(** class OpenAIModel *)
Definition OpenAIModel_init (openai_model_name : string) : result (list (string * pyval)) :=
  Ok [("openai_model_name", PStr openai_model_name)].

Definition OpenAIModel_query (prompt : string) : result pyval :=
  Ok (PStr ("OpenAI response to: " ++ prompt ++ ")")).

Definition OpenAIModel (rt : runtime) (openai_model_name : string) : pyobject :=
  {| attrs := <["openai_model_name" := Data (PStr openai_model_name)]>
              (<["query" := Method OpenAIModel_query]>
              (<["__init__" := Initializer OpenAIModel_init]> (object_attrs rt))) |}.

(** class HuggingFaceModel. Its [__init__] has two parameters besides
    [self]: called with one text it raises TypeError. *)
Definition HuggingFaceModel_init (model_name : string) : result (list (string * pyval)) :=
  Raise TypeError.

Definition HuggingFaceModel_generate (prompt : string) : result pyval :=
  Ok (PStr ("HuggingFace response to: " ++ prompt ++ ")")).

Definition HuggingFaceModel (rt : runtime) (model_name quantization_method : string) : pyobject :=
  {| attrs := <["model_name" := Data (PStr model_name)]>
              (<["quantization_method" := Data (PStr quantization_method)]>
              (<["generate" := Method HuggingFaceModel_generate]>
              (<["__init__" := Initializer HuggingFaceModel_init]> (object_attrs rt)))) |}.

(** The builtin [getattr(obj, name)] (two-argument form: no default). *)
Definition getattr (obj : pyobject) (name : string) : result attr :=
  match attrs obj !! name with
  | Some a => Ok a
  | None => Raise (AttributeError name)
  end.

(** The call [a(text)]: what it returns or raises. A bound [__init__]
    returns [None]. *)
Definition call (a : attr) (text : string) : result pyval :=
  match a with
  | Method f => f text
  | Data _ => Raise TypeError
  | Initializer assign =>
      match assign text with
      | Ok _ => Ok PNone
      | Raise e => Raise e
      end
  end.

(** The object after the call [a(text)] of one of its attributes: a bound
    [__init__] that returns has made its assignments, in order; any other
    call leaves the object as it was. *)
Definition after_call (obj : pyobject) (a : attr) (text : string) : pyobject :=
  match a with
  | Initializer assign =>
      match assign text with
      | Ok assignments =>
          {| attrs := foldl (fun m kv => <[kv.1 := Data kv.2]> m) (attrs obj) assignments |}
      | Raise _ => obj
      end
  | Data _ | Method _ => obj
  end.

(** class ModelAdapter; the record constructor is [__init__]. *)
Record ModelAdapter : Type := {
  model : pyobject;
  query_method : string
}.

Definition query (self : ModelAdapter) (text : string) : result pyval :=
  match getattr (model self) (query_method self) with
  | Ok a => call a text
  | Raise e => Raise e
  end.

(** The adapter after [query(text)]: it holds the same model, in the state
    the call left it. *)
Definition after_query (self : ModelAdapter) (text : string) : ModelAdapter :=
  match getattr (model self) (query_method self) with
  | Ok a => {| model := after_call (model self) a text;
               query_method := query_method self |}
  | Raise _ => self
  end.

(** The two adapters of the module's script. *)
Definition openai_model (rt : runtime) : ModelAdapter :=
  {| model := OpenAIModel rt "gpt-4o"; query_method := "query" |}.

Definition huggingface_model (rt : runtime) : ModelAdapter :=
  {| model := HuggingFaceModel rt "Mistral7b" "bitsandbytes";
     query_method := "generate" |}.

End Adapter.

(** * builder.py *)

Module Builder.

(** A Python number: an [int], or a [float] as its binary64 value. *)
Inductive pynum : Type :=
  | PyInt (z : Z)
  | PyFloat (f : spec_float).

(** The float literals of the module: [1.0] is 2^52 * 2^-52, and [0.7] is
    the binary64 value nearest to it, 0x16666666666666 * 2^-53. *)
Definition float_1_0 : spec_float := S754_finite false 4503599627370496 (-52).
Definition float_0_7 : spec_float := S754_finite false 6305039478318694 (-53).

(** A list is true when it is not empty. *)
Definition truthy {A} (l : list A) : bool :=
  match l with
  | [] => false
  | _ :: _ => true
  end.

(** class Query *)
Module Query.
Record t : Type := mk {
  prompt : string;
  temperature : pynum;
  max_tokens : pynum
}.
End Query.

(** One few-shot example: the dict [{"input": ..., "output": ...}] that
    [add_example] stores. It is built with these two keys and read by the
    same two keys only, so it is a record with two fields. *)
Record Example : Type := {
  input : string;
  output : string
}.

(** class QueryBuilder. Its methods run in [M t]: the accumulator [self] is
    the state. A setter ends in [return self], so that calls chain; the
    chain [b.f(x).g(y)] is the sequence [f x ;; g y] on the one state. *)
Module QueryBuilder.

Record t : Type := {
  prompt : string;
  temperature : pynum;
  max_tokens : pynum;
  examples : list Example
}.

(** [__init__] *)
Definition init : t :=
  {| prompt := "";
     temperature := PyFloat float_1_0;
     max_tokens := PyInt 100;
     examples := [] |}.

Definition set_prompt (prompt' : string) : M t unit :=
  self <- get ;;
  put {| prompt := prompt';
         temperature := temperature self;
         max_tokens := max_tokens self;
         examples := examples self |}.

Definition set_temperature (temperature' : pynum) : M t unit :=
  self <- get ;;
  put {| prompt := prompt self;
         temperature := temperature';
         max_tokens := max_tokens self;
         examples := examples self |}.

Definition set_max_tokens (max_tokens' : pynum) : M t unit :=
  self <- get ;;
  put {| prompt := prompt self;
         temperature := temperature self;
         max_tokens := max_tokens';
         examples := examples self |}.

Definition add_example (example_input example_output : string) : M t unit :=
  self <- get ;;
  put {| prompt := prompt self;
         temperature := temperature self;
         max_tokens := max_tokens self;
         examples := (examples self
                      ++ [{| input := example_input; output := example_output |}])%list |}.

(** The f-string [f"Input: {ex['input']}\nOutput: {ex['output']}"]. *)
Definition render_example (ex : Example) : string :=
  "Input: " ++ input ex ++ nl ++ "Output: " ++ output ex.

Definition build : M t Query.t :=
  self <- get ;;
  let full_prompt :=
    if truthy (examples self) then
      let example_str := join (nl ++ nl) (map render_example (examples self)) in
      example_str ++ nl ++ nl ++ "Input: " ++ prompt self ++ nl ++ "Output:"
    else
      prompt self
  in
  ret (Query.mk full_prompt (temperature self) (max_tokens self)).

End QueryBuilder.

(** A configuration call on the accumulator (anything but [build]), as
    data, to quantify over what a client does between two points. *)
Inductive call : Type :=
  | SetPrompt (prompt : string)
  | SetTemperature (temperature : pynum)
  | SetMaxTokens (max_tokens : pynum)
  | AddExample (example_input example_output : string).

Definition exec (c : call) : M QueryBuilder.t unit :=
  match c with
  | SetPrompt p => QueryBuilder.set_prompt p
  | SetTemperature t => QueryBuilder.set_temperature t
  | SetMaxTokens n => QueryBuilder.set_max_tokens n
  | AddExample i o => QueryBuilder.add_example i o
  end.

Definition exec_all (cs : list call) : M QueryBuilder.t unit :=
  for_each cs exec.

(** The calls that touch neither the prompt nor the examples. *)
Definition tunes_only (c : call) : bool :=
  match c with
  | SetTemperature _ | SetMaxTokens _ => true
  | SetPrompt _ | AddExample _ _ => false
  end.

(** The two queries of the module's script. *)
Definition few_shot_query : result Query.t :=
  fst ((QueryBuilder.add_example "What is Python?" "Python is a programming language." ;;
        QueryBuilder.add_example "What is Java?" "Java is a programming language." ;;
        QueryBuilder.set_prompt "What is C++?" ;;
        QueryBuilder.set_temperature (PyFloat float_0_7) ;;
        QueryBuilder.set_max_tokens (PyInt 50) ;;
        QueryBuilder.build) QueryBuilder.init).

Definition no_shot_query : result Query.t :=
  fst ((QueryBuilder.set_prompt "What is the capital of France?" ;;
        QueryBuilder.set_max_tokens (PyInt 20) ;;
        QueryBuilder.build) QueryBuilder.init).

(** The few-shot text as the specification words it, line by line: every
    example is the two lines [Input: <in>] and [Output: <out>], a blank line
    follows each example, and the prompt comes last as [Input: <prompt>]
    and an [Output:] line with no text. The text is these lines joined by
    line feeds. *)
Definition example_lines (ex : Example) : list string :=
  ["Input: " ++ input ex; "Output: " ++ output ex].

Definition prompt_lines (p : string) : list string :=
  ["Input: " ++ p; "Output:"].

Fixpoint few_shot_lines (exs : list Example) (p : string) : list string :=
  match exs with
  | [] => prompt_lines p
  | ex :: rest => (example_lines ex ++ [""] ++ few_shot_lines rest p)%list
  end.

Definition few_shot_text (exs : list Example) (p : string) : string :=
  join nl (few_shot_lines exs p).

(** The prompt text the specification gives for a state of the
    accumulator: the prompt verbatim when there is no example, the few-shot
    text otherwise. *)
Definition expected_prompt (exs : list Example) (p : string) : string :=
  match exs with
  | [] => p
  | _ :: _ => few_shot_text exs p
  end.

End Builder.

(** * observer.py *)

Module Observer.

(** The console: the lines printed so far. *)
Definition console : Type := list string.

(** [print(line)] *)
Definition print (line : string) : M console unit :=
  fun out => (Ok tt, (out ++ [line])%list).

(** The interface of class Observer: one method [update]. [O] is the type
    of listener references and [W] the state that updates act on; an update
    returns or raises. The registry is not part of [W]: a listener does not
    change the registry it is notified from. *)
Class Observer (W O : Type) : Type :=
  update : O -> string -> M W unit.

Section Notifier.

Context {W O : Type} `{EqDecision O} `{!Observer W O}.

(** class LLMOutputNotifier *)
Record LLMOutputNotifier : Type := { observers : list O }.

(** [__init__] *)
Definition init : LLMOutputNotifier := {| observers := [] |}.

(** [l.remove(x)]: the list without its first item equal to [x];
    [None] when no item is, where Python raises ValueError and leaves the
    list as it was. *)
Fixpoint list_remove (x : O) (l : list O) : option (list O) :=
  match l with
  | [] => None
  | y :: l' =>
      if decide (y = x) then Some l'
      else match list_remove x l' with
           | Some r => Some (y :: r)
           | None => None
           end
  end.

Definition add_observer (observer : O) : M LLMOutputNotifier unit :=
  self <- get ;;
  put {| observers := (observers self ++ [observer])%list |}.

Definition remove_observer (observer : O) : M LLMOutputNotifier unit :=
  self <- get ;;
  match list_remove observer (observers self) with
  | Some l => put {| observers := l |}
  | None => raise ValueError
  end.

Definition notify (self : LLMOutputNotifier) (llm_output : string) : M W unit :=
  for_each (observers self) (fun observer => update observer llm_output).

End Notifier.

Arguments LLMOutputNotifier O : clear implicits.

(** The classes of the module, and an object of one of them: its class and
    its identity. Two objects are equal when they are the same object (none
    of the classes defines [__eq__]). *)
Inductive observer_class : Type :=
  | ObserverBase      (* class Observer *)
  | Logger
  | UIUpdater.

Record object : Type := { class : observer_class; ident : nat }.

#[global] Instance observer_class_eq_dec : EqDecision observer_class.
Proof. solve_decision. Defined.

#[global] Instance object_eq_dec : EqDecision object.
Proof. solve_decision. Defined.

Definition class_update (c : observer_class) (llm_output : string) : M console unit :=
  match c with
  | ObserverBase => ret tt
  | Logger => print ("Logger: Saving LLM output to logs: " ++ llm_output)
  | UIUpdater => print ("UI: Displaying LLM output to the user: " ++ llm_output)
  end.

#[global] Instance object_observer : Observer console object :=
  fun o => class_update (class o).

(** The objects and the outputs of the module's script. *)
Definition logger : object := {| class := Logger; ident := 0 |}.
Definition ui_updater : object := {| class := UIUpdater; ident := 1 |}.

Definition llm_generated_output_1 : string := "The capital of France is Paris.".
Definition llm_generated_output_2 : string :=
  "Python is a programming language known for its simplicity.".

End Observer.

(** * strategy.py *)

Module Strategy.

(** The interface of class RAGStrategy: one method [retrieve]. A strategy
    object is the record of its method; the three classes of the module
    compute without side effects and never raise. *)
Record RAGStrategy : Type := { retrieve : string -> pyval }.

(** The abstract class itself: the body of its [retrieve] is [pass]. *)
Definition RAGStrategy_base : RAGStrategy :=
  {| retrieve := fun query => PNone |}.

Definition NaiveRAG : RAGStrategy :=
  {| retrieve := fun query =>
       PList [PStr "Document 1: Basics of Python."; PStr "Document 2: OOP in Python."] |}.

(** The local [all_docs] of [AdvancedRAG.retrieve]. *)
Definition all_docs : list string :=
  [ "Document 1: Basics of Python.";
    "Document 2: Advanced Python Design Patterns.";
    "Document 3: Strategy Pattern in Depth." ].

Definition AdvancedRAG : RAGStrategy :=
  {| retrieve := fun query =>
       PList (map PStr (List.filter (fun doc => contains "Design Patterns" doc) all_docs)) |}.

(** class ChatBot; the record constructor is [__init__]. *)
Record ChatBot : Type := { strategy : RAGStrategy }.

Definition set_strategy (strategy' : RAGStrategy) : M ChatBot unit :=
  put {| strategy := strategy' |}.

Definition get_response (query : string) : M ChatBot string :=
  self <- get ;;
  let retrieved_docs := retrieve (strategy self) query in
  ret ("Generated response based on: " ++ py_str retrieved_docs).

(** [get_response] on each query of a list in turn, collecting the
    responses. *)
Fixpoint get_responses (queries : list string) : M ChatBot (list string) :=
  match queries with
  | [] => ret []
  | q :: qs =>
      r <- get_response q ;;
      rs <- get_responses qs ;;
      ret (r :: rs)
  end.

End Strategy.

(** * Notions for the further properties

    What the properties beyond the specification's own are stated with: the
    summary of a sequence of configuration calls, the console lines of the
    concrete observers, a listener whose update fails, and the texts that
    [repr] leaves as they are. *)

Module Further.

Import Adapter Builder Observer Strategy.

(** ** builder.py *)

(** The value a sequence of calls leaves in each field: the argument of the
    last call that sets the field, or the value [d] it held before. *)
Fixpoint last_prompt (cs : list call) (d : string) : string :=
  match cs with
  | [] => d
  | SetPrompt p :: cs' => last_prompt cs' p
  | _ :: cs' => last_prompt cs' d
  end.

Fixpoint last_temperature (cs : list call) (d : pynum) : pynum :=
  match cs with
  | [] => d
  | SetTemperature t :: cs' => last_temperature cs' t
  | _ :: cs' => last_temperature cs' d
  end.

Fixpoint last_max_tokens (cs : list call) (d : pynum) : pynum :=
  match cs with
  | [] => d
  | SetMaxTokens n :: cs' => last_max_tokens cs' n
  | _ :: cs' => last_max_tokens cs' d
  end.

(** The examples a sequence of calls adds, in the order of the calls. *)
Fixpoint added_examples (cs : list call) : list Example :=
  match cs with
  | [] => []
  | AddExample i o :: cs' => {| input := i; output := o |} :: added_examples cs'
  | _ :: cs' => added_examples cs'
  end.

(** The attribute of the accumulator a call assigns to. *)
Inductive field : Type := FPrompt | FTemperature | FMaxTokens | FExamples.

#[global] Instance field_eq_dec : EqDecision field.
Proof. solve_decision. Defined.

Definition field_of (c : call) : field :=
  match c with
  | SetPrompt _ => FPrompt
  | SetTemperature _ => FTemperature
  | SetMaxTokens _ => FMaxTokens
  | AddExample _ _ => FExamples
  end.

(** The characters one example takes in the few-shot text: its two labels
    (7 and 8 characters), the line feed between its lines, the two line
    feeds after it, and its two texts. *)
Definition example_size (ex : Example) : nat :=
  18 + String.length (input ex) + String.length (output ex).

(** ** observer.py *)

(** The line an object of each class prints for an output, if it prints. *)
Definition printed_line (o : object) (llm_output : string) : option string :=
  match class o with
  | ObserverBase => None
  | Logger => Some ("Logger: Saving LLM output to logs: " ++ llm_output)
  | UIUpdater => Some ("UI: Displaying LLM output to the user: " ++ llm_output)
  end.

(** Two listeners that are not in the module, to exercise [notify] on an
    update that fails: [Counting] adds one to a counter, [Failing] raises. *)
Inductive probe : Type := Counting | Failing.

#[global] Instance probe_eq_dec : EqDecision probe.
Proof. solve_decision. Defined.

#[global] Instance probe_observer : Observer nat probe :=
  fun o llm_output =>
    match o with
    | Counting => fun n => (Ok tt, S n)
    | Failing => raise ValueError
    end.

(** ** strategy.py *)

(** The characters [repr] copies between single quotes as they are: the
    printable characters but the single quote and the backslash. *)
Definition plain_char (c : ascii) : bool :=
  negb (bool_decide (c = SQUOTE))
  && negb (bool_decide (c = BACKSLASH))
  && printable (N_of_ascii c).

Fixpoint plain (s : string) : bool :=
  match s with
  | EmptyString => true
  | String c s' => plain_char c && plain s'
  end.

(** A text between single quotes. *)
Definition quoted (s : string) : string :=
  String SQUOTE (s ++ String SQUOTE EmptyString).

(** A text with every kind of character [repr] treats apart: both quotes,
    the backslash, tab, line feed, carriage return, the controls U+0001 and
    U+007F, the no-break space U+00A0, the soft hyphen U+00AD, and the
    printable letter U+00E9 between two ASCII letters. *)
Definition awkward_text : string :=
  "q'"
    ++ String DQUOTE ""
    ++ String BACKSLASH ""
    ++ String TAB ""
    ++ String LF ""
    ++ String CR ""
    ++ String "001"%char ""
    ++ String "127"%char ""
    ++ String "160"%char ""
    ++ String "173"%char ""
    ++ String "233"%char "z".

(** What Python shows for the list of the text "it's" and the text above:
    the first between double quotes, the second between single quotes with
    its single quote and backslash escaped, its controls, no-break space
    and soft hyphen written as escapes, and its letters copied. *)
Definition awkward_list_shown : string :=
  "["
    ++ String DQUOTE "it's"
    ++ String DQUOTE ", 'q"
    ++ String BACKSLASH "'"
    ++ String DQUOTE ""
    ++ String BACKSLASH ""
    ++ String BACKSLASH ""
    ++ String BACKSLASH "t"
    ++ String BACKSLASH "n"
    ++ String BACKSLASH "r"
    ++ String BACKSLASH "x01"
    ++ String BACKSLASH "x7f"
    ++ String BACKSLASH "xa0"
    ++ String BACKSLASH "xad"
    ++ String "233"%char "z']".

End Further.

(** * Properties *)

Import Adapter Builder Observer Strategy.
Import Further.

(** ** Text and the monad *)

Lemma append_nil_l (b : string) : "" ++ b = b.
Proof. reflexivity. Qed.

Lemma append_cons (x : ascii) (a b : string) : String x a ++ b = String x (a ++ b).
Proof. reflexivity. Qed.

Lemma append_assoc (a b c : string) : (a ++ b) ++ c = a ++ b ++ c.
Proof.
  induction a as [|x a IH]; [reflexivity |].
  rewrite !append_cons. now rewrite IH.
Qed.

(** Rewriting with [str] brings a text built by appending pieces to the
    right-nested form in which literals have met their continuation. *)
Create Rewrite HintDb str.
#[local] Hint Rewrite append_assoc append_cons append_nil_l : str.

Lemma join_cons (sep x : string) (l : list string) :
  l <> [] -> join sep (x :: l) = x ++ sep ++ join sep l.
Proof. destruct l as [|y l]; [congruence | reflexivity]. Qed.

Lemma bind_ok {S A B} (m : M S A) (k : A -> M S B) (s s' : S) (a : A) :
  m s = (Ok a, s') -> bind m k s = k a s'.
Proof. intros H. unfold bind. now rewrite H. Qed.

(** ** adapter.py *)

Example adapter_script_openai :
  Adapter.query (openai_model sample_runtime) "What is Python?"
  = Ok (PStr "OpenAI response to: What is Python?)").
Proof. vm_compute. reflexivity. Qed.

Example adapter_script_huggingface :
  Adapter.query (huggingface_model sample_runtime) "What is Python?"
  = Ok (PStr "HuggingFace response to: What is Python?)").
Proof. vm_compute. reflexivity. Qed.

(** C2. When the target exposes a method [f] under the name the adapter was
    built with, [query] on the adapter returns, for every text, exactly what
    [f] returns for that text (a value, or the exception [f] raises). *)
Theorem adapter_query_delegates
    (target : pyobject) (name : string) (f : string -> result pyval) (X : string) :
  attrs target !! name = Some (Method f) ->
  Adapter.query {| model := target; query_method := name |} X = f X.
Proof.
  intros Hf. unfold Adapter.query, getattr. simpl. now rewrite Hf.
Qed.

Lemma adapter_query_delegates_witness :
  attrs (OpenAIModel sample_runtime "gpt-4o") !! "query" = Some (Method OpenAIModel_query)
  /\ Adapter.query {| model := OpenAIModel sample_runtime "gpt-4o"; query_method := "query" |} "What is Python?"
     = OpenAIModel_query "What is Python?".
Proof.
  split.
  - vm_compute. reflexivity.
  - apply (adapter_query_delegates (OpenAIModel sample_runtime "gpt-4o") "query" OpenAIModel_query).
    vm_compute. reflexivity.
Defined.

(** C3. When the target has no attribute under the name the adapter was
    built with, [query] raises AttributeError for that name, for every text:
    it never returns a value. *)
Theorem adapter_query_missing_method
    (target : pyobject) (name : string) (X : string) :
  attrs target !! name = None ->
  Adapter.query {| model := target; query_method := name |} X
  = Raise (AttributeError name).
Proof.
  intros Hno. unfold Adapter.query, getattr. simpl. now rewrite Hno.
Qed.

Lemma adapter_query_missing_method_witness :
  attrs (OpenAIModel sample_runtime "gpt-4o") !! "generate" = None
  /\ Adapter.query {| model := OpenAIModel sample_runtime "gpt-4o"; query_method := "generate" |}
       "What is Python?"
     = Raise (AttributeError "generate").
Proof.
  split.
  - vm_compute. reflexivity.
  - apply (adapter_query_missing_method (OpenAIModel sample_runtime "gpt-4o") "generate").
    vm_compute. reflexivity.
Defined.

(** A name that is a data attribute is found by [getattr], and the call
    then raises TypeError: no value is returned in this case either. *)
Lemma adapter_query_data_attribute
    (target : pyobject) (name : string) (v : pyval) (X : string) :
  attrs target !! name = Some (Data v) ->
  Adapter.query {| model := target; query_method := name |} X = Raise TypeError.
Proof.
  intros Hv. unfold Adapter.query, getattr. simpl. now rewrite Hv.
Qed.

Example adapter_data_attribute :
  Adapter.query {| model := OpenAIModel sample_runtime "gpt-4o"; query_method := "openai_model_name" |} "hi"
  = Raise TypeError.
Proof. vm_compute. reflexivity. Qed.

(** ** builder.py *)

Import QueryBuilder.

Example float_1_0_is_one : float_1_0 = S754_finite false (2 ^ 52) (-52).
Proof. reflexivity. Qed.

Example builder_script_few_shot :
  few_shot_query
  = Ok (Query.mk
          ("Input: What is Python?" ++ nl ++ "Output: Python is a programming language."
           ++ nl ++ nl
           ++ "Input: What is Java?" ++ nl ++ "Output: Java is a programming language."
           ++ nl ++ nl
           ++ "Input: What is C++?" ++ nl ++ "Output:")
          (PyFloat float_0_7) (PyInt 50)).
Proof. vm_compute. reflexivity. Qed.

Example builder_script_no_shot :
  no_shot_query
  = Ok (Query.mk "What is the capital of France?" (PyFloat float_1_0) (PyInt 20)).
Proof. vm_compute. reflexivity. Qed.

Lemma few_shot_lines_nonempty (exs : list Example) (p : string) :
  few_shot_lines exs p <> [].
Proof. destruct exs; discriminate. Qed.

Lemma few_shot_text_cons (ex : Example) (rest : list Example) (p : string) :
  few_shot_text (ex :: rest) p
  = render_example ex ++ nl ++ nl ++ few_shot_text rest p.
Proof.
  unfold few_shot_text, render_example. cbn [few_shot_lines example_lines app].
  rewrite !join_cons by (try apply few_shot_lines_nonempty; discriminate).
  autorewrite with str. reflexivity.
Qed.

(** What [build] concatenates when there are examples is the few-shot text
    of the specification. *)
Lemma join_examples_few_shot (ex : Example) (rest : list Example) (p : string) :
  join (nl ++ nl) (map render_example (ex :: rest))
    ++ nl ++ nl ++ "Input: " ++ p ++ nl ++ "Output:"
  = few_shot_text (ex :: rest) p.
Proof.
  revert ex. induction rest as [|ex' rest IH]; intros ex.
  - rewrite few_shot_text_cons. unfold few_shot_text, join. cbn.
    autorewrite with str. reflexivity.
  - rewrite few_shot_text_cons, <- IH.
    change (map render_example (ex :: ex' :: rest))
      with (render_example ex :: map render_example (ex' :: rest)).
    rewrite join_cons by discriminate.
    autorewrite with str. reflexivity.
Qed.

(** [build] returns, does not raise, leaves the accumulator as it was, and
    the Query it returns has the prompt text of the specification. *)
Lemma build_spec (self : QueryBuilder.t) :
  build self
  = (Ok (Query.mk (expected_prompt (examples self) (prompt self))
                  (temperature self) (max_tokens self)),
     self).
Proof.
  unfold build, bind, get, ret, expected_prompt.
  destruct self as [p t m [|ex rest]];
    cbn [examples prompt temperature max_tokens truthy].
  - reflexivity.
  - now rewrite join_examples_few_shot.
Qed.

(** Calls that only tune the temperature and the token count return, and
    leave the prompt and the examples as they were. *)
Lemma exec_all_tunes_only (cs : list call) (self : QueryBuilder.t) :
  forallb tunes_only cs = true ->
  exists t m,
    exec_all cs self
    = (Ok tt, {| prompt := prompt self; temperature := t; max_tokens := m;
                 examples := examples self |}).
Proof.
  revert self. induction cs as [|c cs IH]; intros self Hcs.
  - exists (temperature self), (max_tokens self). now destruct self.
  - cbn [forallb] in Hcs. apply andb_prop in Hcs as [Hc Hcs].
    destruct c as [p | t | n | i o]; try discriminate Hc.
    + set (self' := {| prompt := prompt self; temperature := t;
                       max_tokens := max_tokens self;
                       examples := examples self |}).
      change (exec_all (SetTemperature t :: cs) self) with (exec_all cs self').
      destruct (IH self' Hcs) as (t' & m' & ->). eauto.
    + set (self' := {| prompt := prompt self; temperature := temperature self;
                       max_tokens := n;
                       examples := examples self |}).
      change (exec_all (SetMaxTokens n :: cs) self) with (exec_all cs self').
      destruct (IH self' Hcs) as (t' & m' & ->). eauto.
Qed.

(** C1. With the examples (Q1, A1), (Q2, A2), in that order, and the prompt
    Q3, whatever the temperature and the token count, [build] returns the
    Query whose prompt is the six lines and two blank lines of the
    specification; and for every accumulator with at least one example,
    [build] returns a Query whose prompt is the few-shot text: each example
    as its Input and Output lines, a blank line after each example, then the
    prompt as an Input line and an Output line with no text. *)
Theorem build_few_shot_prompt :
  (forall t m,
     build {| prompt := "Q3"; temperature := t; max_tokens := m;
              examples := [ {| input := "Q1"; output := "A1" |};
                            {| input := "Q2"; output := "A2" |} ] |}
     = (Ok (Query.mk
              ("Input: Q1" ++ nl ++ "Output: A1" ++ nl ++ nl
               ++ "Input: Q2" ++ nl ++ "Output: A2" ++ nl ++ nl
               ++ "Input: Q3" ++ nl ++ "Output:")
              t m),
        {| prompt := "Q3"; temperature := t; max_tokens := m;
           examples := [ {| input := "Q1"; output := "A1" |};
                         {| input := "Q2"; output := "A2" |} ] |}))
  /\ (forall self : QueryBuilder.t,
        examples self <> [] ->
        exists q,
          build self = (Ok q, self)
          /\ Query.prompt q = few_shot_text (examples self) (prompt self)).
Proof.
  split.
  - intros t m. vm_compute. reflexivity.
  - intros self Hex. rewrite build_spec. eexists. split; [reflexivity |].
    cbn [Query.prompt]. destruct (examples self); [congruence | reflexivity].
Qed.

Lemma build_few_shot_prompt_witness :
  examples {| prompt := "What is C++?"; temperature := PyFloat float_0_7;
              max_tokens := PyInt 50;
              examples := [ {| input := "What is Python?";
                               output := "Python is a programming language." |} ] |}
  <> []
  /\ exists q,
       build {| prompt := "What is C++?"; temperature := PyFloat float_0_7;
                max_tokens := PyInt 50;
                examples := [ {| input := "What is Python?";
                                 output := "Python is a programming language." |} ] |}
       = (Ok q,
          {| prompt := "What is C++?"; temperature := PyFloat float_0_7;
             max_tokens := PyInt 50;
             examples := [ {| input := "What is Python?";
                              output := "Python is a programming language." |} ] |})
       /\ Query.prompt q
          = few_shot_text
              [ {| input := "What is Python?";
                   output := "Python is a programming language." |} ]
              "What is C++?".
Proof.
  split; [discriminate |].
  apply (proj2 build_few_shot_prompt
           {| prompt := "What is C++?"; temperature := PyFloat float_0_7;
              max_tokens := PyInt 50;
              examples := [ {| input := "What is Python?";
                               output := "Python is a programming language." |} ] |}).
  discriminate.
Defined.

(** The same text, reached from a fresh accumulator through the setters. *)
Example build_few_shot_prompt_chain :
  fst ((add_example "Q1" "A1" ;; add_example "Q2" "A2" ;; set_prompt "Q3" ;; build) init)
  = Ok (Query.mk
          ("Input: Q1" ++ nl ++ "Output: A1" ++ nl ++ nl
           ++ "Input: Q2" ++ nl ++ "Output: A2" ++ nl ++ nl
           ++ "Input: Q3" ++ nl ++ "Output:")
          (PyFloat float_1_0) (PyInt 100)).
Proof. vm_compute. reflexivity. Qed.

(** C8. On an accumulator with no example, after [set_prompt p] and any
    further calls that set only the temperature or the token count, [build]
    returns a Query whose prompt is [p] itself, and the accumulator still
    holds [p] and no example. *)
Theorem build_zero_examples_verbatim
    (self : QueryBuilder.t) (p : string) (cs : list call) :
  examples self = [] ->
  forallb tunes_only cs = true ->
  exists q self',
    (set_prompt p ;; exec_all cs ;; build) self = (Ok q, self')
    /\ Query.prompt q = p
    /\ prompt self' = p
    /\ examples self' = [].
Proof.
  intros Hex Hcs.
  set (self1 := {| prompt := p; temperature := temperature self;
                   max_tokens := max_tokens self; examples := examples self |}).
  change ((set_prompt p ;; exec_all cs ;; build) self)
    with ((exec_all cs ;; build) self1).
  destruct (exec_all_tunes_only cs self1 Hcs) as (t & m & Hrun).
  rewrite (bind_ok _ _ _ _ tt Hrun), build_spec.
  cbn [self1 examples prompt temperature max_tokens]. rewrite Hex.
  do 2 eexists. repeat split; reflexivity.
Qed.

Lemma build_zero_examples_verbatim_witness :
  examples init = []
  /\ forallb tunes_only [SetMaxTokens (PyInt 20)] = true
  /\ exists q self',
       (set_prompt "What is the capital of France?"
        ;; exec_all [SetMaxTokens (PyInt 20)] ;; build) init = (Ok q, self')
       /\ Query.prompt q = "What is the capital of France?"
       /\ prompt self' = "What is the capital of France?"
       /\ examples self' = [].
Proof.
  split; [reflexivity |]. split; [reflexivity |].
  apply (build_zero_examples_verbatim init "What is the capital of France?"
           [SetMaxTokens (PyInt 20)]); reflexivity.
Defined.

(** Runs the setters that stand in front of a [build]. *)
Ltac run_setters :=
  cbv [bind set_prompt set_temperature set_max_tokens add_example get put].

(** C9. [build] leaves the accumulator as it was, so two calls in a row
    return the same Query (equal prompt, temperature and token count); and a
    [build] that follows a setter or [add_example] returns the Query of the
    changed accumulator: the new prompt, the new temperature, the new token
    count, or the few-shot text with the new example last. *)
Theorem build_reads_state :
  (forall self : QueryBuilder.t,
     exists q,
       build self = (Ok q, self)
       /\ (q1 <- build ;; q2 <- build ;; ret (q1, q2)) self = (Ok (q, q), self))
  /\ (forall (self : QueryBuilder.t) p,
        fst ((build ;; set_prompt p ;; build) self)
        = Ok (Query.mk (expected_prompt (examples self) p)
                       (temperature self) (max_tokens self)))
  /\ (forall (self : QueryBuilder.t) t,
        fst ((build ;; set_temperature t ;; build) self)
        = Ok (Query.mk (expected_prompt (examples self) (prompt self))
                       t (max_tokens self)))
  /\ (forall (self : QueryBuilder.t) n,
        fst ((build ;; set_max_tokens n ;; build) self)
        = Ok (Query.mk (expected_prompt (examples self) (prompt self))
                       (temperature self) n))
  /\ (forall (self : QueryBuilder.t) i o,
        fst ((build ;; add_example i o ;; build) self)
        = Ok (Query.mk (few_shot_text
                          (examples self ++ [ {| input := i; output := o |} ])
                          (prompt self))
                       (temperature self) (max_tokens self))).
Proof.
  repeat split.
  - intros self. eexists. split; [apply build_spec |].
    unfold bind. rewrite build_spec. cbn beta iota. now rewrite build_spec.
  - intros self p. rewrite (bind_ok build _ self self _ (build_spec self)).
    run_setters. now rewrite build_spec.
  - intros self t. rewrite (bind_ok build _ self self _ (build_spec self)).
    run_setters. now rewrite build_spec.
  - intros self n. rewrite (bind_ok build _ self self _ (build_spec self)).
    run_setters. now rewrite build_spec.
  - intros self i o. rewrite (bind_ok build _ self self _ (build_spec self)).
    run_setters. rewrite build_spec.
    cbn [fst examples prompt temperature max_tokens].
    now destruct (examples self).
Qed.

(** C10. A fresh accumulator holds the empty prompt, the temperature 1.0,
    the token count 100 and no example, and [build] on it returns the Query
    with the empty prompt, the temperature 1.0 and the token count 100. *)
Theorem fresh_builder_defaults :
  prompt init = ""
  /\ temperature init = PyFloat float_1_0
  /\ max_tokens init = PyInt 100
  /\ examples init = []
  /\ build init = (Ok (Query.mk "" (PyFloat float_1_0) (PyInt 100)), init).
Proof. repeat split. Qed.

(** ** observer.py *)

Lemma bind_ret_tt {S} (m : M S unit) (s : S) : (m ;; ret tt) s = m s.
Proof. unfold bind, ret. now destruct (m s) as [[[]|e] s']. Qed.

Section NotifierProps.

Context {W O : Type} `{EqDecision O} `{!Observer W O}.

Lemma list_remove_In (x : O) (l : list O) :
  In x l ->
  exists l1 l2,
    l = (l1 ++ x :: l2)%list /\ ~ In x l1 /\ list_remove x l = Some (l1 ++ l2)%list.
Proof.
  induction l as [|y l IH]; intros Hin; [destruct Hin |].
  cbn [list_remove]. destruct (decide (y = x)) as [->|Hne].
  - exists [], l. repeat split. intros [].
  - destruct Hin as [Heq|Hin]; [congruence |].
    destruct (IH Hin) as (l1 & l2 & -> & Hl1 & ->).
    exists (y :: l1), l2. repeat split.
    intros [Heq|Hin1]; [congruence | exact (Hl1 Hin1)].
Qed.

Lemma list_remove_not_In (x : O) (l : list O) :
  ~ In x l -> list_remove x l = None.
Proof.
  induction l as [|y l IH]; intros Hnin; [reflexivity |].
  cbn [list_remove]. destruct (decide (y = x)) as [->|Hne].
  - destruct Hnin. now left.
  - rewrite IH; [reflexivity |]. intros Hin. apply Hnin. now right.
Qed.

(** C4. On a fresh notifier, adding L1 and then L2 registers them in that
    order; [notify X] is then [update X] of L1 followed by [update X] of
    L2, on the state L1 left; removing L1 leaves L2 alone, and [notify Y] is
    then [update Y] of L2 and nothing else. *)
Theorem notify_in_registration_order (L1 L2 : O) (X Y : string) :
  (add_observer L1 ;; add_observer L2) Observer.init = (Ok tt, {| observers := [L1; L2] |})
  /\ (forall w : W,
        notify {| observers := [L1; L2] |} X w = (update L1 X ;; update L2 X) w)
  /\ remove_observer L1 {| observers := [L1; L2] |} = (Ok tt, {| observers := [L2] |})
  /\ (forall w : W, notify {| observers := [L2] |} Y w = update L2 Y w).
Proof.
  repeat split.
  - intros w. unfold notify. cbn [observers for_each].
    unfold bind at 1. unfold bind at 2.
    destruct (update L1 X w) as [[[]|e] w1]; [apply bind_ret_tt | reflexivity].
  - unfold remove_observer, bind, get. cbn [observers list_remove].
    now rewrite decide_True.
  - intros w. unfold notify. cbn [observers for_each]. apply bind_ret_tt.
Qed.

(** C7. [remove_observer] takes the first occurrence of the listener out
    of the registry and keeps the rest in order; a listener added twice is
    still registered once after one removal; for a listener that is not
    registered it raises ValueError and the registry is as it was. *)
Theorem remove_observer_first_occurrence (x : O) (self : LLMOutputNotifier O) :
  (In x (observers self) ->
     exists l1 l2,
       observers self = (l1 ++ x :: l2)%list
       /\ ~ In x l1
       /\ remove_observer x self = (Ok tt, {| observers := (l1 ++ l2)%list |}))
  /\ (~ In x (observers self) ->
        remove_observer x self = (Raise ValueError, self))
  /\ (add_observer x ;; add_observer x ;; remove_observer x) Observer.init
     = (Ok tt, {| observers := [x] |}).
Proof.
  repeat split.
  - intros Hin. destruct (list_remove_In x _ Hin) as (l1 & l2 & Hl & Hl1 & Hrm).
    exists l1, l2. repeat split; [exact Hl | exact Hl1 |].
    unfold remove_observer, bind, get. now rewrite Hrm.
  - intros Hnin. unfold remove_observer, bind, get.
    now rewrite (list_remove_not_In x _ Hnin).
  - cbv [bind add_observer remove_observer get put Observer.init observers app list_remove].
    now rewrite decide_True.
Qed.

End NotifierProps.

Lemma remove_observer_first_occurrence_witness :
  (In logger [ui_updater; logger; logger]
   /\ exists l1 l2,
        [ui_updater; logger; logger] = (l1 ++ logger :: l2)%list
        /\ ~ In logger l1
        /\ remove_observer logger {| observers := [ui_updater; logger; logger] |}
           = (Ok tt, {| observers := (l1 ++ l2)%list |}))
  /\ (~ In logger [ui_updater]
      /\ remove_observer logger {| observers := [ui_updater] |}
         = (Raise ValueError, {| observers := [ui_updater] |})).
Proof.
  assert (Hin : In logger [ui_updater; logger; logger]) by (simpl; right; left; reflexivity).
  assert (Hnin : ~ In logger [ui_updater]) by (simpl; intros [H|[]]; discriminate H).
  split.
  - split; [exact Hin |].
    exact (proj1 (remove_observer_first_occurrence
                    logger {| observers := [ui_updater; logger; logger] |}) Hin).
  - split; [exact Hnin |].
    exact (proj1 (proj2 (remove_observer_first_occurrence
                           logger {| observers := [ui_updater] |})) Hnin).
Defined.

(** The module's script, call by call: the console after the second
    notification holds the two lines of the first one and the one line of
    the second. *)
Example observer_script :
  exists n1 n2 c1,
    (add_observer logger ;; add_observer ui_updater) Observer.init = (Ok tt, n1)
    /\ notify n1 llm_generated_output_1 [] = (Ok tt, c1)
    /\ remove_observer logger n1 = (Ok tt, n2)
    /\ notify n2 llm_generated_output_2 c1
       = (Ok tt,
          [ "Logger: Saving LLM output to logs: The capital of France is Paris.";
            "UI: Displaying LLM output to the user: The capital of France is Paris.";
            "UI: Displaying LLM output to the user: Python is a programming language known for its simplicity." ]).
Proof. do 3 eexists. repeat split. Qed.

(** ** strategy.py *)

Example repr_str_quotes :
  repr_str "it's" = String DQUOTE ("it's" ++ String DQUOTE "")
  /\ repr_str ("tab" ++ String TAB "") = String SQUOTE ("tab" ++ String BACKSLASH ("t" ++ String SQUOTE "")).
Proof. split; reflexivity. Qed.

Example strategy_abstract :
  get_response "Explain Python design patterns." {| strategy := RAGStrategy_base |}
  = (Ok "Generated response based on: None", {| strategy := RAGStrategy_base |}).
Proof. reflexivity. Qed.

Example strategy_script :
  get_response "Explain Python design patterns." {| strategy := NaiveRAG |}
  = (Ok "Generated response based on: ['Document 1: Basics of Python.', 'Document 2: OOP in Python.']",
     {| strategy := NaiveRAG |})
  /\ get_response "Explain Python design patterns." {| strategy := AdvancedRAG |}
     = (Ok "Generated response based on: ['Document 2: Advanced Python Design Patterns.']",
        {| strategy := AdvancedRAG |}).
Proof. split; reflexivity. Qed.

(** C5. [AdvancedRAG.retrieve] returns, for every query, the one-element
    list with "Document 2: Advanced Python Design Patterns."; two queries
    give the same result; and of the three fixed candidates it is the second
    alone that contains "Design Patterns". *)
Theorem advanced_retrieve_ignores_query :
  (forall q : string,
     retrieve AdvancedRAG q
     = PList [PStr "Document 2: Advanced Python Design Patterns."])
  /\ (forall q1 q2 : string, retrieve AdvancedRAG q1 = retrieve AdvancedRAG q2)
  /\ map (contains "Design Patterns") all_docs = [false; true; false].
Proof. repeat split. Qed.

(** A bot answers every query of a list with its strategy, which it keeps. *)
Lemma get_responses_spec (queries : list string) (bot : ChatBot) :
  get_responses queries bot
  = (Ok (map (fun q => "Generated response based on: "
                       ++ py_str (retrieve (strategy bot) q)) queries),
     bot).
Proof.
  induction queries as [|q qs IH]; [reflexivity |].
  cbn [get_responses map].
  rewrite (bind_ok (get_response q) _ bot bot _ eq_refl).
  now rewrite (bind_ok (get_responses qs) _ bot bot _ IH).
Qed.

Lemma repr_char_plain (c : ascii) :
  plain_char c = true -> repr_char SQUOTE c = String c EmptyString.
Proof.
  unfold plain_char, repr_char. intros Hc.
  apply andb_prop in Hc as [Hc Hctl]. apply andb_prop in Hc as [Hq Hb].
  apply negb_true_iff in Hq, Hb.
  apply bool_decide_eq_false in Hq, Hb.
  rewrite (decide_False (P := c = SQUOTE)) by exact Hq.
  rewrite (decide_False (P := c = BACKSLASH)) by exact Hb.
  rewrite (decide_False (P := c = TAB)) by (intros ->; discriminate Hctl).
  rewrite (decide_False (P := c = LF)) by (intros ->; discriminate Hctl).
  rewrite (decide_False (P := c = CR)) by (intros ->; discriminate Hctl).
  now rewrite Hctl.
Qed.

Lemma repr_chars_plain (s : string) :
  plain s = true -> repr_chars SQUOTE s = s.
Proof.
  induction s as [|c s IH]; [reflexivity |].
  cbn [plain repr_chars]. intros Hs. apply andb_prop in Hs as [Hc Hs].
  now rewrite (repr_char_plain c Hc), (IH Hs).
Qed.

Lemma plain_no_squote (s : string) :
  plain s = true -> has_char SQUOTE s = false.
Proof.
  induction s as [|c s IH]; [reflexivity |].
  cbn [plain has_char]. intros Hs. apply andb_prop in Hs as [Hc Hs].
  unfold plain_char in Hc. apply andb_prop in Hc as [Hc _].
  apply andb_prop in Hc as [Hq _].
  apply negb_true_iff, bool_decide_eq_false in Hq.
  rewrite decide_False by exact Hq. exact (IH Hs).
Qed.

Lemma repr_str_plain (s : string) :
  plain s = true -> repr_str s = quoted s.
Proof.
  intros Hs. unfold repr_str, repr_quote, quoted.
  rewrite (plain_no_squote s Hs). cbn [andb]. now rewrite (repr_chars_plain s Hs).
Qed.

(** A list of plain texts is shown between square brackets, each text
    between single quotes, with a comma and a space between two texts. *)
Lemma py_str_plain_list (docs : list string) :
  forallb plain docs = true ->
  py_str (PList (map PStr docs)) = "[" ++ join ", " (map quoted docs) ++ "]".
Proof.
  intros Hplain. cbn [py_str py_repr].
  assert (Hmap : map py_repr (map PStr docs) = map quoted docs).
  { induction docs as [|d docs IH]; [reflexivity |].
    cbn [forallb] in Hplain. apply andb_prop in Hplain as [Hd Hdocs].
    cbn [map py_repr]. now rewrite (repr_str_plain d Hd), (IH Hdocs). }
  now rewrite Hmap.
Qed.

(** C6. A bot holds one strategy. The responses it gives before
    [set_strategy s] are "Generated response based on: " followed by what the
    strategy it held then retrieves for the query; every response it gives
    after the swap is that text followed by what [s] retrieves; and the bot
    ends up holding [s]. What is retrieved follows as Python shows it: a
    text as it is, [None] as the word None, and a list between square
    brackets, its texts separated by a comma and a space and each between
    quotes: single quotes around a plain text, and the quotes and escapes of
    [repr] around a text with quotes, backslashes or characters that are not
    printable. *)
Theorem chatbot_delegates_to_active_strategy
    (s0 s : RAGStrategy) (before after : list string) :
  (rs1 <- get_responses before ;;
   set_strategy s ;;
   rs2 <- get_responses after ;;
   ret (rs1, rs2)) {| strategy := s0 |}
  = (Ok (map (fun q => "Generated response based on: " ++ py_str (retrieve s0 q)) before,
         map (fun q => "Generated response based on: " ++ py_str (retrieve s q)) after),
     {| strategy := s |})
  /\ (forall t : string, py_str (PStr t) = t)
  /\ py_str PNone = "None"
  /\ (forall docs : list string,
        forallb plain docs = true ->
        py_str (PList (map PStr docs)) = "[" ++ join ", " (map quoted docs) ++ "]")
  /\ py_str (PList [PStr "it's"; PStr awkward_text]) = awkward_list_shown.
Proof.
  split; [| split; [| split; [| split]]].
  - rewrite (bind_ok _ _ _ _ _ (get_responses_spec before _)).
    rewrite (bind_ok (set_strategy s) _ _ {| strategy := s |} tt eq_refl).
    now rewrite (bind_ok _ _ _ _ _ (get_responses_spec after _)).
  - reflexivity.
  - reflexivity.
  - exact py_str_plain_list.
  - vm_compute. reflexivity.
Qed.

Lemma chatbot_delegates_to_active_strategy_witness :
  forallb plain ["Document 1: Basics of Python."; "Document 2: OOP in Python."] = true
  /\ py_str (PList (map PStr ["Document 1: Basics of Python.";
                              "Document 2: OOP in Python."]))
     = "[" ++ join ", " (map quoted ["Document 1: Basics of Python.";
                                     "Document 2: OOP in Python."]) ++ "]".
Proof.
  split; [reflexivity |].
  apply (proj1 (proj2 (proj2 (proj2
           (chatbot_delegates_to_active_strategy NaiveRAG AdvancedRAG [] []))))
           ["Document 1: Basics of Python."; "Document 2: OOP in Python."]).
  reflexivity.
Defined.

(** * Further properties *)

Import Further.

(** ** adapter.py *)

Lemma adapter_query_data_attribute_witness :
  attrs (HuggingFaceModel sample_runtime "Mistral7b" "bitsandbytes") !! "model_name"
  = Some (Data (PStr "Mistral7b"))
  /\ Adapter.query {| model := HuggingFaceModel sample_runtime "Mistral7b" "bitsandbytes";
                      query_method := "model_name" |} "What is Python?"
     = Raise TypeError.
Proof.
  split.
  - vm_compute. reflexivity.
  - apply (adapter_query_data_attribute
             (HuggingFaceModel sample_runtime "Mistral7b" "bitsandbytes") "model_name" (PStr "Mistral7b")).
    vm_compute. reflexivity.
Defined.

(** A name that is not special is not among the inherited attributes. *)
Lemma object_attrs_plain (rt : runtime) (name : string) :
  special name = false -> object_attrs rt !! name = None.
Proof.
  intros Hname. destruct (object_attrs rt !! name) as [a|] eqn:E; [| reflexivity].
  rewrite (object_attrs_special rt name (ex_intro _ a E)) in Hname. discriminate Hname.
Qed.

(** The two model classes behind the adapter: whatever the model names and
    the configuration, the adapter on an OpenAIModel under "query" and the
    adapter on a HuggingFaceModel under "generate" return the canned text
    around the prompt, closing parenthesis included; each model under the
    other's method name raises AttributeError. *)
Theorem adapters_uniform_interface
    (rt : runtime) (openai_model_name model_name quantization_method text : string) :
  Adapter.query {| model := OpenAIModel rt openai_model_name; query_method := "query" |} text
  = Ok (PStr ("OpenAI response to: " ++ text ++ ")"))
  /\ Adapter.query {| model := HuggingFaceModel rt model_name quantization_method;
                      query_method := "generate" |} text
     = Ok (PStr ("HuggingFace response to: " ++ text ++ ")"))
  /\ Adapter.query {| model := OpenAIModel rt openai_model_name; query_method := "generate" |} text
     = Raise (AttributeError "generate")
  /\ Adapter.query {| model := HuggingFaceModel rt model_name quantization_method;
                      query_method := "query" |} text
     = Raise (AttributeError "query").
Proof.
  unfold Adapter.query, getattr, OpenAIModel, HuggingFaceModel. cbn [model query_method attrs].
  split; [| split; [| split]].
  - rewrite lookup_insert_ne by discriminate. now rewrite lookup_insert_eq.
  - rewrite !lookup_insert_ne by discriminate. now rewrite lookup_insert_eq.
  - rewrite !lookup_insert_ne by discriminate.
    now rewrite (object_attrs_plain rt "generate" eq_refl).
  - rewrite !lookup_insert_ne by discriminate.
    now rewrite (object_attrs_plain rt "query" eq_refl).
Qed.

(** Built with the name [__init__], the adapter reaches the initializer of
    its model: on an OpenAIModel [query] returns [None] and the model is
    then the OpenAIModel named by the text; on a HuggingFaceModel, whose
    initializer wants two arguments, [query] raises TypeError and the model
    is as it was. *)
Theorem adapter_reaches_initializer
    (rt : runtime) (openai_model_name model_name quantization_method text : string) :
  Adapter.query {| model := OpenAIModel rt openai_model_name; query_method := "__init__" |} text
  = Ok PNone
  /\ after_query {| model := OpenAIModel rt openai_model_name; query_method := "__init__" |} text
     = {| model := OpenAIModel rt text; query_method := "__init__" |}
  /\ Adapter.query {| model := HuggingFaceModel rt model_name quantization_method;
                      query_method := "__init__" |} text
     = Raise TypeError
  /\ after_query {| model := HuggingFaceModel rt model_name quantization_method;
                    query_method := "__init__" |} text
     = {| model := HuggingFaceModel rt model_name quantization_method;
          query_method := "__init__" |}.
Proof.
  unfold Adapter.query, after_query, getattr, OpenAIModel, HuggingFaceModel.
  cbn [model query_method attrs].
  split; [| split; [| split]].
  - do 2 (rewrite lookup_insert_ne by discriminate). now rewrite lookup_insert_eq.
  - do 2 (rewrite lookup_insert_ne by discriminate). rewrite lookup_insert_eq.
    cbn [after_call OpenAIModel_init foldl attrs fst snd].
    do 2 f_equal. apply insert_insert_eq.
  - do 3 (rewrite lookup_insert_ne by discriminate). now rewrite lookup_insert_eq.
  - do 3 (rewrite lookup_insert_ne by discriminate). now rewrite lookup_insert_eq.
Qed.

(** ** builder.py *)

(** Configuration calls never raise, and leave in each field the last value
    set, and the examples they add after the ones that were there. *)
Lemma exec_all_spec (cs : list call) (self : QueryBuilder.t) :
  exec_all cs self
  = (Ok tt,
     {| prompt := last_prompt cs (prompt self);
        temperature := last_temperature cs (temperature self);
        max_tokens := last_max_tokens cs (max_tokens self);
        examples := (examples self ++ added_examples cs)%list |}).
Proof.
  revert self. induction cs as [|c cs IH]; intros self.
  - cbn. rewrite app_nil_r. now destruct self.
  - destruct c as [p | t | n | i o].
    + set (self' := {| prompt := p; temperature := temperature self;
                       max_tokens := max_tokens self; examples := examples self |}).
      change (exec_all (SetPrompt p :: cs) self) with (exec_all cs self').
      now rewrite IH.
    + set (self' := {| prompt := prompt self; temperature := t;
                       max_tokens := max_tokens self; examples := examples self |}).
      change (exec_all (SetTemperature t :: cs) self) with (exec_all cs self').
      now rewrite IH.
    + set (self' := {| prompt := prompt self; temperature := temperature self;
                       max_tokens := n; examples := examples self |}).
      change (exec_all (SetMaxTokens n :: cs) self) with (exec_all cs self').
      now rewrite IH.
    + set (self' := {| prompt := prompt self; temperature := temperature self;
                       max_tokens := max_tokens self;
                       examples := (examples self
                                    ++ [ {| input := i; output := o |} ])%list |}).
      change (exec_all (AddExample i o :: cs) self) with (exec_all cs self').
      rewrite IH. cbn [self' prompt temperature max_tokens examples added_examples].
      now rewrite <- app_assoc.
Qed.

(** Any chain of setters and [add_example] calls followed by [build] returns
    a Query, whatever the values (no temperature or token count is refused):
    its temperature and token count are the last ones set, or the ones held
    before; its prompt is made of the last prompt set and of the examples
    held before followed by the added ones in call order. The accumulator
    keeps these values. *)
Theorem fluent_chain_builds_last_values (cs : list call) (self : QueryBuilder.t) :
  (exec_all cs ;; build) self
  = (Ok (Query.mk
           (expected_prompt (examples self ++ added_examples cs)
                            (last_prompt cs (prompt self)))
           (last_temperature cs (temperature self))
           (last_max_tokens cs (max_tokens self))),
     {| prompt := last_prompt cs (prompt self);
        temperature := last_temperature cs (temperature self);
        max_tokens := last_max_tokens cs (max_tokens self);
        examples := (examples self ++ added_examples cs)%list |}).
Proof.
  rewrite (bind_ok _ _ _ _ tt (exec_all_spec cs self)). now rewrite build_spec.
Qed.

(** Two configuration calls that assign to different attributes can be
    made in either order: the accumulator ends in the same state. *)
Theorem calls_on_different_fields_commute (c1 c2 : call) (self : QueryBuilder.t) :
  field_of c1 <> field_of c2 ->
  (exec c1 ;; exec c2) self = (exec c2 ;; exec c1) self.
Proof.
  intros Hne. destruct c1, c2; solve [reflexivity | now destruct Hne].
Qed.

Lemma calls_on_different_fields_commute_witness :
  field_of (AddExample "What is Python?" "Python is a programming language.")
  <> field_of (SetPrompt "What is C++?")
  /\ (exec (AddExample "What is Python?" "Python is a programming language.")
      ;; exec (SetPrompt "What is C++?")) init
     = (exec (SetPrompt "What is C++?")
        ;; exec (AddExample "What is Python?" "Python is a programming language.")) init.
Proof.
  split; [discriminate |].
  apply (calls_on_different_fields_commute
           (AddExample "What is Python?" "Python is a programming language.")
           (SetPrompt "What is C++?") init).
  discriminate.
Defined.

Lemma few_shot_text_nil (p : string) :
  few_shot_text [] p = "Input: " ++ p ++ nl ++ "Output:".
Proof. unfold few_shot_text, join. cbn. now autorewrite with str. Qed.

Lemma few_shot_text_snoc (exs : list Example) (p o p' : string) :
  few_shot_text (exs ++ [ {| input := p; output := o |} ]) p'
  = few_shot_text exs p ++ " " ++ o ++ nl ++ nl ++ "Input: " ++ p' ++ nl ++ "Output:".
Proof.
  induction exs as [|ex exs IH].
  - cbn [app]. rewrite few_shot_text_cons, !few_shot_text_nil.
    unfold render_example. cbn [input output]. now autorewrite with str.
  - cbn [app]. rewrite !few_shot_text_cons, IH. now autorewrite with str.
Qed.

(** A few-shot prompt continues into the next one: on an accumulator with
    at least one example, recording the current prompt with its answer as a
    further example and setting a new prompt makes [build] return the text
    built before, followed by a space, the answer, a blank line and the new
    prompt as an Input line and an empty Output line. *)
Theorem few_shot_prompt_continues (self : QueryBuilder.t) (answer next : string) :
  examples self <> [] ->
  exists q q',
    build self = (Ok q, self)
    /\ fst ((add_example (prompt self) answer ;; set_prompt next ;; build) self) = Ok q'
    /\ Query.prompt q'
       = Query.prompt q ++ " " ++ answer ++ nl ++ nl ++ "Input: " ++ next ++ nl ++ "Output:".
Proof.
  intros Hex. do 2 eexists. split; [apply build_spec |]. split.
  - run_setters. rewrite build_spec. reflexivity.
  - cbn [Query.prompt examples prompt].
    destruct (examples self) as [|ex rest]; [congruence |].
    cbn [app expected_prompt].
    exact (few_shot_text_snoc (ex :: rest) (prompt self) answer next).
Qed.

Lemma few_shot_prompt_continues_witness :
  examples {| prompt := "Q2"; temperature := PyFloat float_1_0; max_tokens := PyInt 100;
              examples := [ {| input := "Q1"; output := "A1" |} ] |} <> []
  /\ exists q q',
       build {| prompt := "Q2"; temperature := PyFloat float_1_0; max_tokens := PyInt 100;
                examples := [ {| input := "Q1"; output := "A1" |} ] |}
       = (Ok q,
          {| prompt := "Q2"; temperature := PyFloat float_1_0; max_tokens := PyInt 100;
             examples := [ {| input := "Q1"; output := "A1" |} ] |})
       /\ fst ((add_example "Q2" "A2" ;; set_prompt "Q3" ;; build)
                 {| prompt := "Q2"; temperature := PyFloat float_1_0; max_tokens := PyInt 100;
                    examples := [ {| input := "Q1"; output := "A1" |} ] |})
          = Ok q'
       /\ Query.prompt q'
          = Query.prompt q ++ " " ++ "A2" ++ nl ++ nl ++ "Input: " ++ "Q3" ++ nl ++ "Output:".
Proof.
  split; [discriminate |].
  apply (few_shot_prompt_continues
           {| prompt := "Q2"; temperature := PyFloat float_1_0; max_tokens := PyInt 100;
              examples := [ {| input := "Q1"; output := "A1" |} ] |} "A2" "Q3").
  discriminate.
Defined.

Lemma length_append (a b : string) :
  String.length (a ++ b) = (String.length a + String.length b)%nat.
Proof.
  induction a as [|x a IH]; [reflexivity |].
  rewrite append_cons. cbn [String.length]. now rewrite IH.
Qed.

Lemma few_shot_text_length (exs : list Example) (p : string) :
  String.length (few_shot_text exs p)
  = (sum_list_with example_size exs + 15 + String.length p)%nat.
Proof.
  induction exs as [|ex exs IH].
  - rewrite few_shot_text_nil, !length_append. cbn. lia.
  - rewrite few_shot_text_cons. unfold render_example.
    rewrite !length_append, IH. unfold example_size. cbn. lia.
Qed.

(** The size of the built prompt: with no example it is the size of the
    prompt; otherwise every example adds 18 characters to the sizes of its
    two texts, and the closing Input and Output lines add 15 to the size of
    the prompt. *)
Theorem built_prompt_length (self : QueryBuilder.t) :
  exists q,
    build self = (Ok q, self)
    /\ String.length (Query.prompt q)
       = if truthy (examples self)
         then (sum_list_with example_size (examples self)
               + 15 + String.length (prompt self))%nat
         else String.length (prompt self).
Proof.
  eexists. split; [apply build_spec |]. cbn [Query.prompt].
  destruct (examples self) as [|ex rest]; [reflexivity |].
  cbn [expected_prompt truthy]. apply few_shot_text_length.
Qed.

(** [build] copies the example texts as they are: an example whose input
    holds a line feed, an Output label, a blank line and an Input label
    builds the same prompt as the two examples it imitates. The examples
    cannot be read back from the prompt. *)
Theorem build_does_not_escape_examples (a b c d p : string) (t m : pynum) :
  fst (build {| prompt := p; temperature := t; max_tokens := m;
                examples := [ {| input := a ++ nl ++ "Output: " ++ b
                                          ++ nl ++ nl ++ "Input: " ++ c;
                                 output := d |} ] |})
  = fst (build {| prompt := p; temperature := t; max_tokens := m;
                  examples := [ {| input := a; output := b |};
                                {| input := c; output := d |} ] |}).
Proof.
  rewrite !build_spec. cbn [fst examples prompt temperature max_tokens expected_prompt].
  do 2 f_equal. rewrite !few_shot_text_cons. unfold render_example.
  cbn [input output]. now autorewrite with str.
Qed.

(** ** observer.py *)

Lemma for_each_app {S A} (xs ys : list A) (body : A -> M S unit) (s : S) :
  for_each (xs ++ ys) body s = (for_each xs body ;; for_each ys body) s.
Proof.
  revert s. induction xs as [|x xs IH]; intros s; [reflexivity |].
  cbn [app for_each]. unfold bind.
  destruct (body x s) as [[[]|e] s1]; [exact (IH s1) | reflexivity].
Qed.

Lemma bind_raise_run {S A B} (m : M S A) (k : A -> M S B) (s s' : S) (e : exn) :
  m s = (Raise e, s') -> bind m k s = (Raise e, s').
Proof. intros H. unfold bind. now rewrite H. Qed.

Section NotifierFurther.

Context {W O : Type} `{EqDecision O} `{!Observer W O}.

Lemma list_remove_middle (x : O) (l1 l2 : list O) :
  ~ In x l1 -> list_remove x (l1 ++ x :: l2) = Some (l1 ++ l2)%list.
Proof.
  induction l1 as [|y l1 IH]; intros Hnin; cbn [app list_remove].
  - now rewrite decide_True.
  - rewrite decide_False by (intros ->; apply Hnin; now left).
    rewrite IH; [reflexivity |]. intros Hin. apply Hnin. now right.
Qed.

(** [notify] follows the registry: it does nothing on an empty registry; on
    a registry in two parts it is [notify] on the first part and then on the
    second; and a listener that has just been added is updated after all the
    listeners that were there. *)
Theorem notify_follows_registry
    (self : LLMOutputNotifier O) (l1 l2 : list O) (x : O) (X : string) (w : W) :
  notify Observer.init X w = (Ok tt, w)
  /\ notify {| observers := (l1 ++ l2)%list |} X w
     = (notify {| observers := l1 |} X ;; notify {| observers := l2 |} X) w
  /\ exists self',
       add_observer x self = (Ok tt, self')
       /\ notify self' X w = (notify self X ;; update x X) w.
Proof.
  split; [reflexivity |]. split.
  - unfold notify. cbn [observers]. apply for_each_app.
  - eexists. split; [reflexivity |].
    unfold notify. cbn [observers]. rewrite for_each_app.
    unfold bind. destruct (for_each (observers self) _ w) as [[[]|e] w1]; [| reflexivity].
    cbn [for_each]. apply bind_ret_tt.
Qed.

(** There is no isolation between listeners: when the listeners before [x]
    have been updated and the update of [x] raises, [notify] raises that
    exception, in the state [x] left, and the listeners after [x] are not
    updated. *)
Theorem notify_stops_at_first_failure
    (l1 l2 : list O) (x : O) (X : string) (w w1 w2 : W) (e : exn) :
  notify {| observers := l1 |} X w = (Ok tt, w1) ->
  update x X w1 = (Raise e, w2) ->
  notify {| observers := (l1 ++ x :: l2)%list |} X w = (Raise e, w2).
Proof.
  unfold notify. cbn [observers]. intros Hl1 Hx.
  rewrite for_each_app, (bind_ok _ _ _ _ _ Hl1). cbn [for_each].
  now rewrite (bind_raise_run _ _ _ _ _ Hx).
Qed.

(** Adding a listener and removing it again: when it was not registered the
    registry is as before; when it was, it is its earlier registration that
    goes, so the listener moves to the end of the registry. *)
Theorem add_then_remove_observer (x : O) (self : LLMOutputNotifier O) :
  (~ In x (observers self) ->
     (add_observer x ;; remove_observer x) self = (Ok tt, self))
  /\ (In x (observers self) ->
        exists l1 l2,
          observers self = (l1 ++ x :: l2)%list
          /\ ~ In x l1
          /\ (add_observer x ;; remove_observer x) self
             = (Ok tt, {| observers := (l1 ++ l2 ++ [x])%list |})).
Proof.
  split.
  - intros Hnin. destruct self as [l]. cbn [observers] in Hnin.
    cbv [bind add_observer remove_observer get put observers].
    rewrite (list_remove_middle x l [] Hnin). now rewrite app_nil_r.
  - intros Hin. destruct self as [l]. cbn [observers] in Hin |- *.
    destruct (list_remove_In x l Hin) as (l1 & l2 & -> & Hl1 & _).
    exists l1, l2. repeat split; [exact Hl1 |].
    cbv [bind add_observer remove_observer get put observers].
    rewrite <- app_assoc. cbn [app].
    now rewrite (list_remove_middle x l1 (l2 ++ [x]) Hl1).
Qed.

End NotifierFurther.

Lemma notify_stops_at_first_failure_witness :
  notify {| observers := [Counting] |} "out" 0%nat = (Ok tt, 1%nat)
  /\ update Failing "out" 1%nat = (Raise ValueError, 1%nat)
  /\ notify {| observers := [Counting; Failing; Counting] |} "out" 0%nat
     = (Raise ValueError, 1%nat).
Proof.
  split; [reflexivity |]. split; [reflexivity |].
  apply (notify_stops_at_first_failure
           [Counting] [Counting] Failing "out" 0%nat 1%nat 1%nat ValueError);
    reflexivity.
Defined.

Lemma add_then_remove_observer_witness :
  (~ In logger [ui_updater]
   /\ (add_observer logger ;; remove_observer logger) {| observers := [ui_updater] |}
      = (Ok tt, {| observers := [ui_updater] |}))
  /\ (In logger [logger; ui_updater]
      /\ exists l1 l2,
           [logger; ui_updater] = (l1 ++ logger :: l2)%list
           /\ ~ In logger l1
           /\ (add_observer logger ;; remove_observer logger)
                {| observers := [logger; ui_updater] |}
              = (Ok tt, {| observers := (l1 ++ l2 ++ [logger])%list |})).
Proof.
  assert (Hnin : ~ In logger [ui_updater]) by (simpl; intros [H|[]]; discriminate H).
  assert (Hin : In logger [logger; ui_updater]) by (simpl; left; reflexivity).
  split.
  - split; [exact Hnin |].
    exact (proj1 (add_then_remove_observer logger {| observers := [ui_updater] |}) Hnin).
  - split; [exact Hin |].
    exact (proj2 (add_then_remove_observer logger {| observers := [logger; ui_updater] |}) Hin).
Defined.

(** With the classes of the module as listeners, [notify] never raises: it
    appends to the console, after what was printed before, one line for
    each Logger and UIUpdater of the registry, in registration order and
    once for each registration, and nothing for a plain Observer. *)
Theorem notify_prints_in_registration_order
    (l : list object) (X : string) (out : console) :
  notify {| observers := l |} X out
  = (Ok tt, (out ++ omap (fun o => printed_line o X) l)%list).
Proof.
  unfold notify. cbn [observers]. revert out.
  induction l as [|[c i] l IH]; intros out.
  - cbn. now rewrite app_nil_r.
  - cbn [for_each]. unfold bind, update, object_observer. cbn [class].
    destruct c; cbn [class_update omap list_omap printed_line class];
      unfold ret, print; rewrite IH; [reflexivity | |]; now rewrite <- app_assoc.
Qed.

(** ** strategy.py *)

(** Neither concrete strategy looks at the query, and the abstract one
    retrieves nothing: whatever the query, the bot answers with the same two
    documents under NaiveRAG, with the same one under AdvancedRAG, and with
    the text None under a plain RAGStrategy; it keeps its strategy. *)
Theorem responses_do_not_depend_on_query (q : string) :
  get_response q {| strategy := NaiveRAG |}
  = (Ok "Generated response based on: ['Document 1: Basics of Python.', 'Document 2: OOP in Python.']",
     {| strategy := NaiveRAG |})
  /\ get_response q {| strategy := AdvancedRAG |}
     = (Ok "Generated response based on: ['Document 2: Advanced Python Design Patterns.']",
        {| strategy := AdvancedRAG |})
  /\ get_response q {| strategy := RAGStrategy_base |}
     = (Ok "Generated response based on: None", {| strategy := RAGStrategy_base |}).
Proof. repeat split. Qed.

Lemma prefix_spec (a s : string) :
  String.prefix a s = true <-> exists post, s = a ++ post.
Proof.
  revert s. induction a as [|x a IH]; intros s.
  - destruct s; (split; [intros _; eexists; reflexivity | reflexivity]).
  - destruct s as [|y s]; cbn [String.prefix].
    + split; [discriminate | intros [post Hpost]; discriminate Hpost].
    + destruct (ascii_dec x y) as [->|Hne].
      * rewrite IH. split; intros [post Hpost]; exists post.
        -- rewrite append_cons. now rewrite Hpost.
        -- rewrite append_cons in Hpost. now injection Hpost.
      * split; [discriminate |]. intros [post Hpost].
        rewrite append_cons in Hpost. injection Hpost as Hxy _. now destruct Hne.
Qed.

(** [sub in s] holds exactly when [s] is some text, [sub], and some text. *)
Lemma contains_spec (sub s : string) :
  contains sub s = true <-> exists pre post, s = pre ++ sub ++ post.
Proof.
  induction s as [|c s IH]; cbn [contains].
  - rewrite orb_false_r, prefix_spec. split.
    + intros [post Hpost]. now exists "", post.
    + intros (pre & post & Hs). destruct pre as [|d pre]; [now exists post |].
      rewrite append_cons in Hs. discriminate Hs.
  - rewrite orb_true_iff, prefix_spec, IH. split.
    + intros [[post Hpost] | (pre & post & Hs)].
      * now exists "", post.
      * exists (String c pre), post. rewrite append_cons. now rewrite Hs.
    + intros (pre & post & Hs). destruct pre as [|d pre].
      * left. now exists post.
      * right. rewrite append_cons in Hs. injection Hs as _ Hs. now exists pre, post.
Qed.

(** What [AdvancedRAG.retrieve] returns, for every query, is a list of
    texts, and a text is in it exactly when it is one of the three fixed
    documents and the words Design Patterns occur in it, at any place. *)
Theorem advanced_retrieve_keeps_substring_matches (q : string) :
  exists kept,
    retrieve AdvancedRAG q = PList (map PStr kept)
    /\ forall doc,
         In doc kept
         <-> In doc all_docs /\ exists pre post, doc = pre ++ "Design Patterns" ++ post.
Proof.
  exists (List.filter (fun doc => contains "Design Patterns" doc) all_docs).
  split; [reflexivity |]. intros doc. now rewrite filter_In, contains_spec.
Qed.

(** The response shows the retrieved documents as Python writes a list:
    when the active strategy retrieves a list of texts without single
    quote, backslash or control character, the response is the fixed opening
    followed by the documents between single quotes, separated by a comma
    and a space, between square brackets; the bot keeps its strategy. *)
Theorem response_lists_quoted_documents
    (s : RAGStrategy) (q : string) (docs : list string) :
  retrieve s q = PList (map PStr docs) ->
  forallb plain docs = true ->
  get_response q {| strategy := s |}
  = (Ok ("Generated response based on: " ++ "[" ++ join ", " (map quoted docs) ++ "]"),
     {| strategy := s |}).
Proof.
  intros Hret Hplain. unfold get_response, bind, get, ret. cbn [strategy].
  now rewrite Hret, (py_str_plain_list docs Hplain).
Qed.

Lemma response_lists_quoted_documents_witness :
  retrieve NaiveRAG "Explain Python design patterns."
  = PList (map PStr ["Document 1: Basics of Python."; "Document 2: OOP in Python."])
  /\ forallb plain ["Document 1: Basics of Python."; "Document 2: OOP in Python."] = true
  /\ get_response "Explain Python design patterns." {| strategy := NaiveRAG |}
     = (Ok ("Generated response based on: " ++ "["
            ++ join ", " (map quoted ["Document 1: Basics of Python.";
                                      "Document 2: OOP in Python."]) ++ "]"),
        {| strategy := NaiveRAG |}).
Proof.
  split; [reflexivity |]. split; [reflexivity |].
  apply (response_lists_quoted_documents NaiveRAG "Explain Python design patterns."
           ["Document 1: Basics of Python."; "Document 2: OOP in Python."]);
    reflexivity.
Defined.
